(** * Nutrition engine of the calorie tracker: meal totals, goals, statistics

    Shallow embedding of the arithmetic found in
    - [backend/models/Meal.js]  (the [MealSchema.pre('save')] hook),
    - [backend/controllers/userController.js]  ([registerUser]),
    - [frontend/navigation/AppNavigator.js]  (the tab icons),
    - [frontend/screens/main/DashboardScreen.js]  (the [today] fallback,
      the macro percentages and the chart data),
    together with the statistics aggregator, which the repository calls
    but does not contain.

    JavaScript numbers are modelled by exact rationals [Q]: every finite
    value the code manipulates is a rational, and the results below are
    about the arithmetic the code writes down, not about IEEE-754 rounding
    error.  Equality of numbers is [Qeq] (written [==]) unless a value is
    produced syntactically, in which case Leibniz equality is used.

    Where the order of the additions or the failure of the hook is at
    stake, the pre-save hook is modelled a second time ([PreSave64]) on
    binary64 floating-point numbers, with food references that may not be
    populated. *)

From Stdlib Require Import QArith Qround Qminmax ZArith List String Ascii Bool.
From Stdlib Require Import Floats.
From Stdlib Require Import Permutation Sorted Lia Lqa Setoid Morphisms.
Import ListNotations.

Local Open Scope Q_scope.

#[local] Set Warnings "-inexact-float".

(** ** JavaScript primitives used by the code *)

Module JS.

(** [Math.round]: nearest integer, ties towards +infinity. *)
Definition Math_round (x : Q) : Q := inject_Z (Qfloor (x + (1 # 2))).

(** A number is a whole unit when it is the image of an integer. *)
Definition whole (x : Q) : Prop := exists z : Z, x == inject_Z z.

(** [r] is [x] rounded to the nearest whole unit, ties upwards. *)
Definition nearest_whole (r x : Q) : Prop :=
  whole r /\ x - (1 # 2) < r /\ r <= x + (1 # 2).

(** [x || d] on an optional number: [undefined] and [0] are falsy. *)
Definition or_default (x : option Q) (d : Q) : Q :=
  match x with
  | Some q => if Qeq_bool q 0 then d else q
  | None => d
  end.

End JS.

(** ** Data model (the mongoose schemas) *)

Definition ObjectId := Z.
Definition Date := Z.   (* milliseconds since the epoch *)

Module Macros.
Record t := mk { protein : Q; carbs : Q; fat : Q }.

End Macros.

Module ServingSize.
Record t := mk { amount : Q; unit : string }.
End ServingSize.

(** [FoodSchema]; the fields the engine never reads (brand, barcode,
    micros, provenance) are kept as plain data. *)
Module Food.
Record t := mk {
  name : string;
  brand : string;
  barcode : string;
  servingSize : ServingSize.t;
  calories : Q;          (* kcal per serving *)
  macros : Macros.t;     (* g per serving *)
  isVerified : bool;
  source : string
}.
End Food.

(** [FoodItemSchema].  The hook's own comment assumes the reference is
    already populated, so [food] holds the food document itself. *)
Module FoodItem.
Record t := mk {
  food : Food.t;
  quantity : Q;
  unit : string
}.
End FoodItem.

Module Meal.
Record t := mk {
  user : ObjectId;
  name : string;
  type : string;
  items : list FoodItem.t;
  date : Date;
  totalCalories : Q;
  totalMacros : Macros.t;
  isFavorite : bool;
  notes : string;
  createdAt : Date
}.

End Meal.

(** ** [MealSchema.pre('save')] *)

(** The hook on populated foods with numeric fields, in exact arithmetic.
    [PreSave64] below is the hook on doubles, with references that may not
    be populated. *)

(** The error kinds named by the specification (section 7); the sources
    define none of them. *)
Inductive EngineError :=
| InvalidQuantityError
| UnsupportedUnitError
| UnknownFoodError.

(** Outcome of a mongoose middleware: [next()] or [next(err)]. *)
Inductive outcome (A : Type) :=
| Next (a : A)
| NextError (e : EngineError).
Arguments Next {A} a.
Arguments NextError {A} e.

Module PreSave.

(** The four local accumulators of the hook. *)
Record totals := mkTotals {
  totalCals : Q;
  totalProtein : Q;
  totalCarbs : Q;
  totalFat : Q
}.

Definition init : totals := mkTotals 0 0 0 0.

(** Body of the [forEach] callback. *)
Definition step (acc : totals) (item : FoodItem.t) : totals :=
  let factor := FoodItem.quantity item in
  let f := FoodItem.food item in
  mkTotals
    (totalCals acc + Food.calories f * factor)
    (totalProtein acc + Macros.protein (Food.macros f) * factor)
    (totalCarbs acc + Macros.carbs (Food.macros f) * factor)
    (totalFat acc + Macros.fat (Food.macros f) * factor).

Definition loop (l : list FoodItem.t) : totals := fold_left step l init.

Definition pre_save (this : Meal.t) : outcome Meal.t :=
  let t := loop (Meal.items this) in
  Next (Meal.mk (Meal.user this) (Meal.name this) (Meal.type this)
          (Meal.items this) (Meal.date this)
          (totalCals t)
          (Macros.mk (totalProtein t) (totalCarbs t) (totalFat t))
          (Meal.isFavorite this) (Meal.notes this) (Meal.createdAt this)).

(** What one item adds to the accumulators. *)
Definition contribution (item : FoodItem.t) : totals := step init item.

Definition totals_equiv (a b : totals) : Prop :=
  totalCals a == totalCals b /\ totalProtein a == totalProtein b /\
  totalCarbs a == totalCarbs b /\ totalFat a == totalFat b.

End PreSave.

(** ** [registerUser] (userController) *)

Module User.
Record t := mk {
  email : string;
  password : string;
  firstName : string;
  lastName : string;
  dateOfBirth : Date;
  gender : string;
  height : Q;            (* cm *)
  weight : Q;            (* kg *)
  activityLevel : string;
  goal : string;
  dailyCalorieGoal : Q;
  macroGoals : Macros.t;
  weightHistory : list (Q * Date)
}.
End User.

(** The fields destructured from [req.body]. *)
Module Body.
Record t := mk {
  email : string;
  password : string;
  firstName : string;
  lastName : string;
  dateOfBirth : Date;
  gender : string;
  height : Q;
  weight : Q;
  activityLevel : string;
  goal : string
}.
End Body.

Module UserController.

(** The local constants of the goal computation, in program order. *)
Record locals := mkLocals {
  calorieGoal : Q;
  protein : Q;
  fat : Q;
  remainingCalories : Q;
  carbs : Q
}.

Definition proteinPerKg : Q := 2.0.

(** Lines "Ajuster selon l'objectif" to "Le reste en glucides" of
    [registerUser]; [tdee] is the value returned by [calculateTDEE]. *)
Definition registerUser_goals (tdee weight : Q) (goal : string) : locals :=
  let calorieGoal := tdee in
  let calorieGoal :=
    if (goal =? "lose")%string then tdee - 500 else calorieGoal in
  let calorieGoal :=
    if (goal =? "gain")%string then tdee + 500 else calorieGoal in
  let protein := JS.Math_round (weight * proteinPerKg) in
  let fat := JS.Math_round ((calorieGoal * 0.25) / 9) in
  let remainingCalories := calorieGoal - (protein * 4) - (fat * 9) in
  let carbs := JS.Math_round (remainingCalories / 4) in
  mkLocals calorieGoal protein fat remainingCalories carbs.

Inductive response :=
| Status201 (u : User.t)
| Status400 (message : string).

(** [registerUser] over an explicit user collection.  [calculateTDEE]
    lives in [utils/metabolismCalculator], whose code is not available,
    and is taken as a parameter; [now] is [new Date()].
    Password hashing and the JWT are left to the excluded layers.  The
    schema validation that [save()] runs and the [catch] branch (status
    500) are not modelled: a 201 here is the answer to a request whose
    document passes validation; on the 500 path nothing is stored. *)
Definition registerUser
    (calculateTDEE : string -> Q -> Q -> Date -> string -> Q)
    (now : Date) (users : list User.t) (body : Body.t)
    : response * list User.t :=
  if existsb (fun u => (User.email u =? Body.email body)%string) users
  then (Status400 "Cet email est déjà utilisé", users)
  else
    let tdee := calculateTDEE (Body.gender body) (Body.weight body)
                  (Body.height body) (Body.dateOfBirth body)
                  (Body.activityLevel body) in
    let g := registerUser_goals tdee (Body.weight body) (Body.goal body) in
    let newUser :=
      User.mk (Body.email body) (Body.password body)
        (Body.firstName body) (Body.lastName body)
        (Body.dateOfBirth body) (Body.gender body) (Body.height body)
        (Body.weight body) (Body.activityLevel body) (Body.goal body)
        (calorieGoal g)
        (Macros.mk (protein g) (carbs g) (fat g))
        [(Body.weight body, now)] in
    (Status201 newUser, users ++ [newUser]).

(** The carbohydrate target as the specification words it
    (section 4.3): the remainder is taken from the unrounded protein
    and fat energy, and rounded once. *)
Definition carbs_from_unrounded (calorieGoal weight : Q) : Q :=
  JS.Math_round
    ((calorieGoal - (weight * proteinPerKg) * 4 - calorieGoal * 0.25) / 4).

End UserController.

(** ** Dashboard screen: the [today] fallback *)

Module Dashboard.

(** The part of [state.auth.user] the screen reads; a field that is
    absent from the stored user is [None]. *)
Record user_t := mkUser {
  dailyCalorieGoal : option Q;
  macroGoals : option Macros.t
}.

(** The shape of [state.stats.daily]. *)
Record daily_t := mkDaily {
  calories : Q;
  macros : Macros.t;
  remaining : Q
}.

(** [user?.dailyCalorieGoal]. *)
Definition user_goal (user : option user_t) : option Q :=
  match user with
  | Some u => dailyCalorieGoal u
  | None => None
  end.

(** [const today = daily || { calories: 0, macros: {...}, remaining:
    user?.dailyCalorieGoal || 2000 }]. *)
Definition today (daily : option daily_t) (user : option user_t) : daily_t :=
  match daily with
  | Some d => d
  | None =>
      mkDaily 0 (Macros.mk 0 0 0) (JS.or_default (user_goal user) 2000)
  end.

End Dashboard.

(** ** UnitConverter *)

Module UnitConverter.

(** Modelled from the spec: unit strings are compared "case-insensitive,
    trimmed" (section 4.1); the helpers below implement that reading. *)
Definition is_space (c : ascii) : bool :=
  let n := nat_of_ascii c in
  (n =? 32)%nat || (n =? 9)%nat || (n =? 10)%nat || (n =? 13)%nat.

Definition lower (c : ascii) : ascii :=
  let n := nat_of_ascii c in
  if ((65 <=? n) && (n <=? 90))%nat then ascii_of_nat (n + 32) else c.

Fixpoint drop_spaces (l : list ascii) : list ascii :=
  match l with
  | c :: l' => if is_space c then drop_spaces l' else l
  | [] => []
  end.

(** Trimmed, lower-case form of a unit string. *)
Definition normalize (u : string) : string :=
  let l := drop_spaces (list_ascii_of_string u) in
  let l := rev (drop_spaces (rev l)) in
  string_of_list_ascii (map lower l).

Inductive family := Mass | Volume.

Definition family_eqb (a b : family) : bool :=
  match a, b with
  | Mass, Mass | Volume, Volume => true
  | _, _ => false
  end.

(** Modelled from the spec: the recognised mass and volume units of
    section 4.1 (grams and kilograms, millilitres and litres), each with
    its family and its size in the family's base unit. *)
Definition recognise (u : string) : option (family * Q) :=
  if (u =? "g")%string then Some (Mass, 1)
  else if (u =? "kg")%string then Some (Mass, 1000)
  else if (u =? "ml")%string then Some (Volume, 1)
  else if (u =? "l")%string then Some (Volume, 1000)
  else None.

(** Modelled from the spec: [UnitConverter.convert] (section 4.1) is not
    in the sources; the pre-save hook uses the raw quantity in its place.
    Same unit: [quantity / amount]; units of one family: both sides are
    brought to the base unit first; otherwise [UnsupportedUnitError];
    a negative quantity is an [InvalidQuantityError]. *)
Definition convert (quantity : Q) (unit : string) (servingSize : ServingSize.t)
    : outcome Q :=
  if Qlt_le_dec quantity 0 then NextError InvalidQuantityError
  else
    let u := normalize unit in
    let su := normalize (ServingSize.unit servingSize) in
    if (u =? su)%string then Next (quantity / ServingSize.amount servingSize)
    else
      match recognise u, recognise su with
      | Some (fu, ku), Some (fs, ks) =>
          if family_eqb fu fs
          then Next ((quantity * ku) / (ServingSize.amount servingSize * ks))
          else NextError UnsupportedUnitError
      | _, _ => NextError UnsupportedUnitError
      end.

(** The multiplier the specification asks for, for one meal item. *)
Definition multiplier (item : FoodItem.t) : outcome Q :=
  convert (FoodItem.quantity item) (FoodItem.unit item)
    (Food.servingSize (FoodItem.food item)).

End UnitConverter.

(** ** StatsAggregator *)

Module Stats.

Record NutrientTotal := mkTotal { energy : Q; macro : Macros.t }.

Definition zero : NutrientTotal := mkTotal 0 (Macros.mk 0 0 0).

Definition add (a b : NutrientTotal) : NutrientTotal :=
  mkTotal (energy a + energy b)
    (Macros.mk (Macros.protein (macro a) + Macros.protein (macro b))
               (Macros.carbs (macro a) + Macros.carbs (macro b))
               (Macros.fat (macro a) + Macros.fat (macro b))).

(** The cached snapshot stored on a meal by the pre-save hook. *)
Definition cached (m : Meal.t) : NutrientTotal :=
  mkTotal (Meal.totalCalories m) (Meal.totalMacros m).

(** Modelled from the spec: [NutrientAggregator.aggregateDay] (section
    4.2) is not in the sources.  It sums the cached total of each meal. *)
Definition aggregateDay (meals : list Meal.t) : NutrientTotal :=
  fold_left (fun acc m => add acc (cached m)) meals zero.

Definition msPerDay : Z := 86400000.

(** Calendar day of a timestamp in the reference time zone, given as an
    offset in milliseconds. *)
Definition dayOf (tz : Z) (d : Date) : Z := ((d + tz) / msPerDay)%Z.

Record DailyStat := mkStat {
  date : Z;              (* calendar day number *)
  calories : Q;
  macros : Macros.t;
  remaining : Q
}.

Definition onDay (tz : Z) (targetDate : Date) (m : Meal.t) : bool :=
  (dayOf tz (Meal.date m) =? dayOf tz targetDate)%Z.

(** Modelled from the spec: [StatsAggregator.dailyStat] (section 4.4) is
    not in the sources; the dashboard only reads its result.  The time
    zone and the energy goal are explicit inputs. *)
Definition dailyStat (tz : Z) (goalEnergy : Q) (meals : list Meal.t)
    (targetDate : Date) : DailyStat :=
  let total := aggregateDay (filter (onDay tz targetDate) meals) in
  mkStat (dayOf tz targetDate) (energy total) (macro total)
         (goalEnergy - energy total).

(** Modelled from the spec: [StatsAggregator.weeklyStat] (section 4.4) is
    not in the sources.  One [dailyStat] per day of the range, first day
    first. *)
Definition weeklyStat (tz : Z) (goalEnergy : Q) (meals : list Meal.t)
    (startDate : Date) (dayCount : nat) : list DailyStat :=
  map (fun i => dailyStat tz goalEnergy meals
                  (startDate + Z.of_nat i * msPerDay)%Z)
      (seq 0 dayCount).

(** What the dashboard keeps of a daily stat. *)
Definition to_dashboard (s : DailyStat) : Dashboard.daily_t :=
  Dashboard.mkDaily (calories s) (macros s) (remaining s).

End Stats.

(** ** Sample data: the scenarios of the specification *)

Module Scenario.

(** A food with serving [{amount: 100, unit: "g"}] and 50 kcal. *)
Definition food50 : Food.t :=
  Food.mk "pomme" "" "" (ServingSize.mk 100 "g") 50 (Macros.mk 1 12 0)
          false "user".

Definition item200g : FoodItem.t := FoodItem.mk food50 200 "g".
Definition item1piece : FoodItem.t := FoodItem.mk food50 1 "piece".
Definition item3kg : FoodItem.t := FoodItem.mk food50 3 "kg".

Definition meal_of (l : list FoodItem.t) (d : Date) : Meal.t :=
  Meal.mk 1%Z "dejeuner" "lunch" l d 7 (Macros.mk 7 7 7) false "" d.

Definition meal200g : Meal.t := meal_of [item200g] 0%Z.
Definition mealPiece : Meal.t := meal_of [item200g; item1piece] 0%Z.

End Scenario.

(** ** The pre-save hook on doubles, with unpopulated references *)

Module Macros64.
Record t := mk { protein : float; carbs : float; fat : float }.
End Macros64.

Module ServingSize64.
Record t := mk { amount : float; unit : string }.
End ServingSize64.

(** A food document as the hook reads it.  A numeric field that the
    document lacks reads as [undefined], and [undefined * factor] is [NaN]:
    such a field is represented by [nan]. *)
Module Food64.
Record t := mk {
  name : string;
  servingSize : ServingSize64.t;
  calories : float;
  macros : Macros64.t
}.
End Food64.

(** A meal item.  [food] is the populated food document, or what the
    path holds otherwise: the bare [ObjectId] when it was not populated
    ([Unpopulated] also stands for the [null] left by a populate that finds
    no food; the hook throws on both). *)
Module FoodItem64.

Inductive ref :=
| Populated (f : Food64.t)
| Unpopulated (id : ObjectId).

Record t := mk {
  food : ref;
  quantity : float;
  unit : string
}.


End FoodItem64.

Module PreSave64.

Record totals := mkTotals {
  totalCals : float;
  totalProtein : float;
  totalCarbs : float;
  totalFat : float
}.

Definition init : totals := mkTotals 0 0 0 0.

(** Body of the [forEach] callback on a populated food. *)
Definition step (acc : totals) (f : Food64.t) (item : FoodItem64.t) : totals :=
  let factor := FoodItem64.quantity item in
  mkTotals
    (totalCals acc + Food64.calories f * factor)
    (totalProtein acc + Macros64.protein (Food64.macros f) * factor)
    (totalCarbs acc + Macros64.carbs (Food64.macros f) * factor)
    (totalFat acc + Macros64.fat (Food64.macros f) * factor).

(** The [forEach] loop.  On a bare [ObjectId], [item.food.macros] is
    [undefined] and reading [.protein] from it throws a [TypeError], which
    ends the loop and the hook: [None]. *)
Fixpoint forEach (items : list FoodItem64.t) (acc : totals) : option totals :=
  match items with
  | [] => Some acc
  | item :: rest =>
      match FoodItem64.food item with
      | FoodItem64.Populated f => forEach rest (step acc f item)
      | FoodItem64.Unpopulated _ => None
      end
  end.

(** What the hook does: it assigns [this.totalCalories] and
    [this.totalMacros] and calls [next()], or it throws before any
    assignment.  What mongoose makes of an assigned value is not part of
    the hook. *)
Inductive result :=
| Assigned (totalCalories : float) (totalMacros : Macros64.t)
| TypeError.

Definition pre_save (items : list FoodItem64.t) : result :=
  match forEach items init with
  | Some t =>
      Assigned (totalCals t)
               (Macros64.mk (totalProtein t) (totalCarbs t) (totalFat t))
  | None => TypeError
  end.

End PreSave64.

(** Sample items on doubles. *)
Module Scenario64.

Definition food (kcal : float) : Food64.t :=
  Food64.mk "aliment" (ServingSize64.mk 100 "g") kcal (Macros64.mk 1 12 0).

Definition item (kcal quantity : float) (unit : string) : FoodItem64.t :=
  FoodItem64.mk (FoodItem64.Populated (food kcal)) quantity unit.

(** The meal of the "piece" scenario. *)
Definition mealPiece : list FoodItem64.t :=
  [item 50 200 "g"; item 50 1 "piece"].



(** An item whose food was not populated. *)
Definition dangling : FoodItem64.t :=
  FoodItem64.mk (FoodItem64.Unpopulated 7%Z) 1 "g".

End Scenario64.

(** ** Further parts of the sources *)

(** *** Meal items with non-negative data *)

Module MealOps.

(** Every number the hook reads from an item is non-negative. *)
Definition nonneg_item (item : FoodItem.t) : Prop :=
  0 <= FoodItem.quantity item /\
  0 <= Food.calories (FoodItem.food item) /\
  0 <= Macros.protein (Food.macros (FoodItem.food item)) /\
  0 <= Macros.carbs (Food.macros (FoodItem.food item)) /\
  0 <= Macros.fat (Food.macros (FoodItem.food item)).

End MealOps.

(** *** Navigation: the tab icons *)

Module Navigator.

(** The [tabBarIcon] callback of [MainTabNavigator]; [None] is the
    [undefined] left in [iconName] when no branch is taken. *)
Definition iconName (routeName : string) (focused : bool) : option string :=
  if (routeName =? "Dashboard")%string then
    Some (if focused then "home" else "home-outline")%string
  else if (routeName =? "Journal")%string then
    Some (if focused then "journal" else "journal-outline")%string
  else if (routeName =? "Food")%string then
    Some (if focused then "restaurant" else "restaurant-outline")%string
  else if (routeName =? "Plans")%string then
    Some (if focused then "calendar" else "calendar-outline")%string
  else if (routeName =? "Profile")%string then
    Some (if focused then "person" else "person-outline")%string
  else None.

(** The names of the [Tab.Screen]s, in order. *)
Definition tabs : list string :=
  ["Dashboard"; "Journal"; "Food"; "Plans"; "Profile"]%string.

End Navigator.

(** *** Dashboard screen: macro percentages and the 7-day chart *)

Module Chart.

(** One entry of [state.stats.weekly]. *)
Record day_t := mkDay { date : string; calories : Q }.

(** [user?.macroGoals?.<macro>]. *)
Definition macroGoal (sel : Macros.t -> Q) (user : option Dashboard.user_t)
    : option Q :=
  match user with
  | Some u =>
      match Dashboard.macroGoals u with
      | Some m => Some (sel m)
      | None => None
      end
  | None => None
  end.

(** [Math.min(100, (consumed / (goal || 1)) * 100)]. *)
Definition percentage (consumed : Q) (goal : option Q) : Q :=
  Qmin 100 ((consumed / JS.or_default goal 1) * 100).

Definition proteinPercentage (today : Dashboard.daily_t)
    (user : option Dashboard.user_t) : Q :=
  percentage (Macros.protein (Dashboard.macros today))
             (macroGoal Macros.protein user).

Definition carbsPercentage (today : Dashboard.daily_t)
    (user : option Dashboard.user_t) : Q :=
  percentage (Macros.carbs (Dashboard.macros today))
             (macroGoal Macros.carbs user).

Definition fatPercentage (today : Dashboard.daily_t)
    (user : option Dashboard.user_t) : Q :=
  percentage (Macros.fat (Dashboard.macros today))
             (macroGoal Macros.fat user).

(** [calorieChartData]: the labels and the two data series.  [weekly] is
    [None] when the store holds no weekly stats ([null]); an array, even
    empty, is truthy.  [user.dailyCalorieGoal] may be absent. *)
Record chartData := mkChart {
  labels : list string;
  consumed : list Q;
  objective : list (option Q)
}.

(** [Array(n).fill(v)]; [Array(undefined)] is the one-element array
    [[undefined]], so without weekly stats the series has one point. *)
Definition Array_fill {A : Type} (n : option nat) (v : A) : list A :=
  match n with
  | Some k => repeat v k
  | None => [v]
  end.

Definition calorieChartData (weekly : option (list day_t))
    (dailyCalorieGoal : option Q) : chartData :=
  mkChart
    (match weekly with Some w => map date w | None => [] end)
    (match weekly with Some w => map calories w | None => [] end)
    (Array_fill (option_map (@List.length day_t) weekly) dailyCalorieGoal).

(** The guard [weekly && weekly.length > 0] in front of [LineChart]. *)
Definition showsChart (weekly : option (list day_t)) : bool :=
  match weekly with
  | Some w => (0 <? List.length w)%nat
  | None => false
  end.

End Chart.

(** *** Sample accounts *)

Module Sample.

Definition body1 : Body.t :=
  Body.mk "ana@example.org" "secret" "Ana" "Diaz" 0%Z "female" 165 60
          "moderate" "lose".

(** The same email, submitted again with other data. *)
Definition body2 : Body.t :=
  Body.mk "ana@example.org" "other" "Ana" "D." 0%Z "female" 165 61
          "moderate" "gain".

(** A stand-in for [calculateTDEE]. *)
Definition tdee2000 : string -> Q -> Q -> Date -> string -> Q :=
  fun _ _ _ _ _ => 2000.

(** The collection after [body1] registered at time 5. *)
Definition users1 : list User.t :=
  snd (UserController.registerUser tdee2000 5%Z [] body1).

End Sample.

(** * Properties *)

(** ** Rounding *)

Section Rounding.

Lemma Math_round_nearest (x : Q) : JS.nearest_whole (JS.Math_round x) x.
Proof.
  unfold JS.nearest_whole, JS.Math_round, JS.whole.
  pose proof (Qfloor_le (x + (1 # 2))) as Hle.
  pose proof (Qlt_floor (x + (1 # 2))) as Hlt.
  rewrite inject_Z_plus in Hlt.
  change (inject_Z 1) with 1 in Hlt.
  repeat split.
  - exists (Qfloor (x + (1 # 2))). reflexivity.
  - lra.
  - lra.
Qed.

Lemma Math_round_le_0 (x : Q) : x < 0 -> JS.Math_round x <= 0.
Proof.
  intros Hx. unfold JS.Math_round.
  change 0 with (inject_Z 0). rewrite <- Zle_Qle.
  assert (Hlt : (Qfloor (x + (1 # 2)) < 1)%Z).
  { rewrite Zlt_Qlt.
    apply Qle_lt_trans with (x + (1 # 2)); [apply Qfloor_le|].
    change (inject_Z 1) with 1. lra. }
  lia.
Qed.

Lemma Math_round_neg_iff (x : Q) : JS.Math_round x < 0 <-> x < - (1 # 2).
Proof.
  unfold JS.Math_round.
  pose proof (Qfloor_le (x + (1 # 2))) as Hle.
  pose proof (Qlt_floor (x + (1 # 2))) as Hlt.
  rewrite inject_Z_plus in Hlt. change (inject_Z 1) with 1 in Hlt.
  split; intros H.
  - change 0 with (inject_Z 0) in H. rewrite <- Zlt_Qlt in H.
    assert (Hz : (Qfloor (x + (1 # 2)) <= -1)%Z) by lia.
    rewrite Zle_Qle in Hz. change (inject_Z (-1)) with (-1) in Hz. lra.
  - lra.
Qed.

Lemma whole_add_Z (x : Q) (z : Z) :
  JS.whole x <-> JS.whole (x + inject_Z z).
Proof.
  unfold JS.whole. split; intros [k Hk].
  - exists (k + z)%Z. rewrite inject_Z_plus, Hk. reflexivity.
  - exists (k - z)%Z. unfold Z.sub.
    rewrite inject_Z_plus, inject_Z_opp, <- Hk. ring.
Qed.

End Rounding.

(** ** The pre-save hook *)

(** Every item adds its food's per-serving vector times the raw logged
    quantity, whatever the unit and the serving size. *)
Lemma contribution_raw_quantity (item : FoodItem.t) :
  let f := FoodItem.food item in
  let q := FoodItem.quantity item in
  PreSave.totals_equiv (PreSave.contribution item)
    (PreSave.mkTotals (Food.calories f * q)
       (Macros.protein (Food.macros f) * q)
       (Macros.carbs (Food.macros f) * q)
       (Macros.fat (Food.macros f) * q)).
Proof.
  unfold PreSave.contribution, PreSave.step, PreSave.totals_equiv; simpl.
  repeat split; ring.
Qed.

(** The converter of the specification on the sample items: same unit
    up to case and blanks, kilograms against grams, and a unit outside the
    serving's family. *)
Example convert_samples :
  UnitConverter.convert 200 " G " (ServingSize.mk 100 "g") = Next (200 / 100) /\
  (exists k, UnitConverter.multiplier Scenario.item3kg = Next k /\ k == 30) /\
  UnitConverter.convert 1 "ml" (ServingSize.mk 100 "g")
  = NextError UnsupportedUnitError /\
  UnitConverter.convert (-1) "g" (ServingSize.mk 100 "g")
  = NextError InvalidQuantityError.
Proof.
  split; [vm_compute; reflexivity|].
  split; [eexists; split; [vm_compute; reflexivity | reflexivity]|].
  split; vm_compute; reflexivity.
Qed.

(** C1 (the code departs from the claim).  In the scenario of the
    specification -- quantity 200, unit "g", serving 100 g, 50 kcal -- the
    unit-aware multiplier is 2, which would contribute 100 kcal; the hook
    multiplies by the raw quantity and stores 10000 kcal. *)
Theorem C1_factor_is_raw_quantity :
  (exists k, UnitConverter.multiplier Scenario.item200g = Next k /\ k == 2) /\
  (exists m', PreSave.pre_save Scenario.meal200g = Next m' /\
              Meal.totalCalories m' == 10000 /\
              ~ Meal.totalCalories m' == 50 * 2).
Proof.
  split.
  - eexists. split; [vm_compute; reflexivity | reflexivity].
  - eexists. split; [reflexivity|]. split.
    + reflexivity.
    + intros H. vm_compute in H. discriminate H.
Qed.


(** ** The pre-save hook on doubles *)

Section Doubles.

Import PreSave64.







End Doubles.




(** C9.  The pre-save step writes [totalCalories] and [totalMacros] only:
    items, user, name, type, date, isFavorite, notes and createdAt of the
    saved meal are those of the meal it was given. *)
Theorem C9_pre_save_frame (m : Meal.t) :
  exists m', PreSave.pre_save m = Next m' /\
    Meal.items m' = Meal.items m /\
    Meal.user m' = Meal.user m /\
    Meal.name m' = Meal.name m /\
    Meal.type m' = Meal.type m /\
    Meal.date m' = Meal.date m /\
    Meal.isFavorite m' = Meal.isFavorite m /\
    Meal.notes m' = Meal.notes m /\
    Meal.createdAt m' = Meal.createdAt m.
Proof.
  eexists. split; [reflexivity|]. simpl. repeat split.
Qed.

(** C10.  For a meal whose item list is empty the recomputed totals are
    exactly zero: [totalCalories] is 0 and [totalMacros] is
    [{protein: 0, carbs: 0, fat: 0}], whatever was cached before. *)
Theorem C10_empty_meal_zero_totals (m : Meal.t) :
  Meal.items m = [] ->
  exists m', PreSave.pre_save m = Next m' /\
    Meal.totalCalories m' = 0 /\
    Meal.totalMacros m' = Macros.mk 0 0 0.
Proof.
  intros Hnil. eexists. split; [reflexivity|].
  simpl. rewrite Hnil. split; reflexivity.
Qed.

(** C10 on a meal without items whose cached totals were 7. *)
Lemma C10_empty_meal_zero_totals_witness :
  Meal.items (Scenario.meal_of [] 5%Z) = [] /\
  exists m', PreSave.pre_save (Scenario.meal_of [] 5%Z) = Next m' /\
    Meal.totalCalories m' = 0 /\
    Meal.totalMacros m' = Macros.mk 0 0 0.
Proof.
  split; [reflexivity|].
  apply (C10_empty_meal_zero_totals (Scenario.meal_of [] 5%Z)).
  reflexivity.
Defined.

(** ** The goal computation of [registerUser] *)

Section GoalFacts.

Import UserController.

Lemma calorieGoal_cases (tdee weight : Q) (goal : string) :
  let c := calorieGoal (registerUser_goals tdee weight goal) in
  c = tdee \/ c = tdee - 500 \/ c = tdee + 500.
Proof.
  unfold registerUser_goals; simpl.
  destruct (goal =? "gain")%string; [now right; right|].
  destruct (goal =? "lose")%string; [now right; left | now left].
Qed.

End GoalFacts.

(** C2 (as stated, refuted).  With a baseline of 2000 kcal, 70 kg and goal
    "maintain" the code stores 234 g of carbohydrate, because the remainder
    is taken after the fat target has been rounded to 56 g (504 kcal);
    from the unrounded contributions (560 and 500 kcal) it would be 235 g. *)
Lemma C2_carbs_from_rounded_targets :
  let g := UserController.registerUser_goals 2000 70 "maintain" in
  UserController.fat g == 56 /\
  UserController.carbs g == 234 /\
  UserController.carbs_from_unrounded (UserController.calorieGoal g) 70 == 235 /\
  ~ UserController.carbs g
    == UserController.carbs_from_unrounded (UserController.calorieGoal g) 70.
Proof.
  cbv zeta. repeat split; try reflexivity.
  intros H. vm_compute in H. discriminate H.
Qed.

(** C2 (amended).  The protein, fat and carbohydrate targets are each
    rounded to the nearest whole gram.  The carbohydrate remainder is the
    energy goal minus 4 kcal per gram of the rounded protein target and
    9 kcal per gram of the rounded fat target, and the carbohydrate target
    is that remainder divided by 4, rounded.  The energy goal itself is
    not rounded here: it is whole exactly when the baseline estimate is. *)
Theorem C2_targets_rounded (tdee weight : Q) (goal : string) :
  let g := UserController.registerUser_goals tdee weight goal in
  JS.nearest_whole (UserController.protein g)
    (weight * UserController.proteinPerKg) /\
  JS.nearest_whole (UserController.fat g)
    (UserController.calorieGoal g * 0.25 / 9) /\
  UserController.remainingCalories g
    = UserController.calorieGoal g - UserController.protein g * 4
      - UserController.fat g * 9 /\
  JS.nearest_whole (UserController.carbs g)
    (UserController.remainingCalories g / 4) /\
  (JS.whole (UserController.calorieGoal g) <-> JS.whole tdee).
Proof.
  intros g.
  split; [apply Math_round_nearest|].
  split; [apply Math_round_nearest|].
  split; [reflexivity|].
  split; [apply Math_round_nearest|].
  destruct (calorieGoal_cases tdee weight goal) as [H|[H|H]];
    fold g in H; rewrite H.
  - reflexivity.
  - symmetry. apply (whole_add_Z tdee (-500)).
  - symmetry. apply (whole_add_Z tdee 500).
Qed.

(** C3 (as stated, refuted).  Baseline 1500 kcal, goal "lose", 150 kg:
    the energy goal is 1000 kcal, protein and fat take 1200 + 252 kcal,
    the remainder is -452 kcal and the stored carbohydrate target is
    -113 g, not 0. *)
Lemma C3_negative_carbs_stored :
  let g := UserController.registerUser_goals 1500 150 "lose" in
  UserController.remainingCalories g < 0 /\
  UserController.carbs g == -113 /\
  ~ UserController.carbs g == 0.
Proof.
  cbv zeta. split; [reflexivity|]. split; [reflexivity|].
  intros H. vm_compute in H. discriminate H.
Qed.

(** C3 (amended).  Whenever the carbohydrate energy remainder is negative,
    the carbohydrate target is that remainder divided by 4 and rounded to
    the nearest whole gram, with no clamping: it is never positive, and it
    is negative as soon as the remainder is below -2 kcal. *)
Theorem C3_negative_remainder_not_clamped (tdee weight : Q) (goal : string) :
  let g := UserController.registerUser_goals tdee weight goal in
  UserController.remainingCalories g < 0 ->
  JS.nearest_whole (UserController.carbs g)
    (UserController.remainingCalories g / 4) /\
  UserController.carbs g <= 0 /\
  (UserController.carbs g < 0 <-> UserController.remainingCalories g < -2).
Proof.
  intros g Hneg.
  change (UserController.carbs g)
    with (JS.Math_round (UserController.remainingCalories g / 4)).
  set (r := UserController.remainingCalories g) in *.
  split; [apply Math_round_nearest|].
  split.
  - apply Math_round_le_0.
    unfold Qdiv. setoid_replace 0 with (0 * / 4) by ring.
    apply Qmult_lt_compat_r; [reflexivity | exact Hneg].
  - rewrite Math_round_neg_iff. split; intros H.
    + assert (E : r == (r / 4) * 4) by (field). rewrite E. lra.
    + assert (E : r / 4 == r * (1 # 4)) by (field). rewrite E. lra.
Qed.

(** C3 (amended) at the input of the refutation. *)
Lemma C3_negative_remainder_not_clamped_witness :
  let g := UserController.registerUser_goals 1500 150 "lose" in
  UserController.remainingCalories g < 0 /\
  JS.nearest_whole (UserController.carbs g)
    (UserController.remainingCalories g / 4) /\
  UserController.carbs g <= 0 /\
  (UserController.carbs g < 0 <-> UserController.remainingCalories g < -2).
Proof.
  cbv zeta.
  assert (H : UserController.remainingCalories
                (UserController.registerUser_goals 1500 150 "lose") < 0)
    by reflexivity.
  split; [exact H|].
  exact (C3_negative_remainder_not_clamped 1500 150 "lose" H).
Defined.

(** C4.  The energy goal is the baseline moved by a constant that depends
    on the goal direction only: no offset for "maintain" (the goal is the
    baseline itself), 500 kcal subtracted for "lose", 500 kcal added for
    "gain". *)
Theorem C4_goal_offset (tdee weight : Q) :
  UserController.calorieGoal
    (UserController.registerUser_goals tdee weight "maintain") = tdee /\
  UserController.calorieGoal
    (UserController.registerUser_goals tdee weight "lose") = tdee - 500 /\
  UserController.calorieGoal
    (UserController.registerUser_goals tdee weight "gain") = tdee + 500 /\
  forall (goal : string) (tdee' weight' : Q),
    UserController.calorieGoal
      (UserController.registerUser_goals tdee weight goal) - tdee
    == UserController.calorieGoal
         (UserController.registerUser_goals tdee' weight' goal) - tdee'.
Proof.
  repeat split.
  intros goal tdee' weight'.
  unfold UserController.registerUser_goals; simpl.
  destruct (goal =? "gain")%string; [ring|].
  destruct (goal =? "lose")%string; ring.
Qed.

(** ** Daily and weekly statistics *)

Section StatsFacts.

Import Stats.

Variables (tz : Z) (goalEnergy : Q) (meals : list Meal.t).

Lemma dayOf_shift (d : Date) (i : nat) :
  dayOf tz (d + Z.of_nat i * msPerDay)%Z = (dayOf tz d + Z.of_nat i)%Z.
Proof.
  unfold dayOf.
  replace (d + Z.of_nat i * msPerDay + tz)%Z
    with (d + tz + Z.of_nat i * msPerDay)%Z by ring.
  apply Z.div_add. unfold msPerDay. lia.
Qed.

Lemma filter_none (d : Date) :
  (forall m, In m meals -> dayOf tz (Meal.date m) <> dayOf tz d) ->
  filter (onDay tz d) meals = [].
Proof.
  intros Hnone. induction meals as [|m l IH]; simpl; [reflexivity|].
  unfold onDay at 1.
  destruct (Z.eqb_spec (dayOf tz (Meal.date m)) (dayOf tz d)) as [E|_].
  - exfalso. apply (Hnone m); [left; reflexivity | exact E].
  - apply IH. intros m' Hin. apply Hnone. right. exact Hin.
Qed.

Lemma dailyStat_date (d : Date) :
  date (dailyStat tz goalEnergy meals d) = dayOf tz d.
Proof. reflexivity. Qed.

Lemma dailyStat_empty_day (d : Date) :
  (forall m, In m meals -> dayOf tz (Meal.date m) <> dayOf tz d) ->
  let s := dailyStat tz goalEnergy meals d in
  calories s = 0 /\ macros s = Macros.mk 0 0 0 /\ remaining s == goalEnergy.
Proof.
  intros Hnone s. subst s. unfold dailyStat.
  rewrite (filter_none d Hnone). simpl.
  repeat split. ring.
Qed.

Lemma weeklyStat_nth (startDate : Date) (dayCount i : nat) :
  (i < dayCount)%nat ->
  nth_error (weeklyStat tz goalEnergy meals startDate dayCount) i
  = Some (dailyStat tz goalEnergy meals (startDate + Z.of_nat i * msPerDay)%Z).
Proof.
  intros Hi. unfold weeklyStat.
  rewrite nth_error_map.
  assert (E : nth_error (seq 0 dayCount) i = Some i).
  { rewrite nth_error_nth' with (d := 0%nat) by (rewrite length_seq; exact Hi).
    rewrite seq_nth by exact Hi. reflexivity. }
  rewrite E. reflexivity.
Qed.

Lemma days_ascending (a : Z) (n s : nat) :
  StronglySorted Z.lt (map (fun i => (a + Z.of_nat i)%Z) (seq s n)).
Proof.
  revert s. induction n as [|n IH]; intros s; simpl; constructor.
  - apply IH.
  - apply Forall_forall. intros y Hy.
    apply in_map_iff in Hy as (i & <- & Hi). apply in_seq in Hi. lia.
Qed.

End StatsFacts.

(** When no daily stat has been loaded, the dashboard shows zero energy
    and macros, and the user's goal as remaining energy -- or 2000 when
    the goal is absent or zero. *)
Lemma today_fallback (user : option Dashboard.user_t) :
  let t := Dashboard.today None user in
  Dashboard.calories t = 0 /\
  Dashboard.macros t = Macros.mk 0 0 0 /\
  Dashboard.remaining t = JS.or_default (Dashboard.user_goal user) 2000.
Proof. repeat split. Qed.

(** The fallback agrees with the stat of a day without meals as soon as
    the user has a non-zero goal. *)
Lemma today_fallback_agrees tz (g : Q) meals (d : Date) (macroGoals : option Macros.t) :
  ~ g == 0 ->
  (forall m, In m meals -> Stats.dayOf tz (Meal.date m) <> Stats.dayOf tz d) ->
  let t := Dashboard.today None (Some (Dashboard.mkUser (Some g) macroGoals)) in
  let s := Stats.to_dashboard (Stats.dailyStat tz g meals d) in
  Dashboard.calories t = Dashboard.calories s /\
  Dashboard.macros t = Dashboard.macros s /\
  Dashboard.remaining t == Dashboard.remaining s.
Proof.
  intros Hg Hnone t s.
  destruct (dailyStat_empty_day tz g meals d Hnone) as (Hc & Hm & Hr).
  subst t s. simpl in *. rewrite Hc, Hm.
  repeat split.
  destruct (Qeq_bool g 0) eqn:E.
  - apply Qeq_bool_iff in E. contradiction.
  - ring.
Qed.

(** C6.  [weeklyStat] returns exactly [dayCount] entries; their calendar
    days are the day of [startDate], the next one, and so on up to the day
    [dayCount - 1] later, in that (strictly ascending) order; and the entry of a day on which
    no meal falls is present with zero energy and zero macros. *)
Theorem C6_weeklyStat_shape (tz : Z) (goalEnergy : Q) (meals : list Meal.t)
    (startDate : Date) (dayCount : nat) :
  let w := Stats.weeklyStat tz goalEnergy meals startDate dayCount in
  List.length w = dayCount /\
  map Stats.date w
  = map (fun i => (Stats.dayOf tz startDate + Z.of_nat i)%Z) (seq 0 dayCount) /\
  StronglySorted Z.lt (map Stats.date w) /\
  forall i : nat, (i < dayCount)%nat ->
    exists s, nth_error w i = Some s /\
      Stats.date s = (Stats.dayOf tz startDate + Z.of_nat i)%Z /\
      ((forall m, In m meals -> Stats.dayOf tz (Meal.date m) <> Stats.date s) ->
       Stats.calories s = 0 /\ Stats.macros s = Macros.mk 0 0 0).
Proof.
  intros w. subst w.
  assert (Hdays : map Stats.date
                    (Stats.weeklyStat tz goalEnergy meals startDate dayCount)
                  = map (fun i => (Stats.dayOf tz startDate + Z.of_nat i)%Z)
                      (seq 0 dayCount)).
  { unfold Stats.weeklyStat. rewrite map_map. apply map_ext.
    intros i. rewrite dailyStat_date. apply dayOf_shift. }
  split; [|split; [exact Hdays|split]].
  - unfold Stats.weeklyStat. rewrite length_map, length_seq. reflexivity.
  - rewrite Hdays. apply days_ascending.
  - intros i Hi. eexists. split; [apply weeklyStat_nth; exact Hi|].
    split; [rewrite dailyStat_date; apply dayOf_shift|].
    intros Hnone. rewrite dailyStat_date in Hnone.
    destruct (dailyStat_empty_day tz goalEnergy meals _ Hnone) as (Hc & Hm & _).
    split; assumption.
Qed.

(** C7.  For a date on which no meal of the list falls, [dailyStat] has
    zero energy, zero protein, carbohydrate and fat, and a remaining energy
    equal to the whole daily energy goal. *)
Theorem C7_dailyStat_no_meals (tz : Z) (goalEnergy : Q) (meals : list Meal.t)
    (targetDate : Date) :
  (forall m, In m meals ->
     Stats.dayOf tz (Meal.date m) <> Stats.dayOf tz targetDate) ->
  let s := Stats.dailyStat tz goalEnergy meals targetDate in
  Stats.calories s = 0 /\
  Stats.macros s = Macros.mk 0 0 0 /\
  Stats.remaining s == goalEnergy.
Proof.
  intros Hnone. apply dailyStat_empty_day. exact Hnone.
Qed.

(** C7 with one meal on day 0, asked for day 3, one hour east of UTC. *)
Lemma C7_dailyStat_no_meals_witness :
  (forall m, In m [Scenario.meal_of [Scenario.item200g] 0%Z] ->
     Stats.dayOf 3600000%Z (Meal.date m) <> Stats.dayOf 3600000%Z 259200000%Z) /\
  let s := Stats.dailyStat 3600000%Z 1800
             [Scenario.meal_of [Scenario.item200g] 0%Z] 259200000%Z in
  Stats.calories s = 0 /\
  Stats.macros s = Macros.mk 0 0 0 /\
  Stats.remaining s == 1800.
Proof.
  assert (H : forall m, In m [Scenario.meal_of [Scenario.item200g] 0%Z] ->
     Stats.dayOf 3600000%Z (Meal.date m) <> Stats.dayOf 3600000%Z 259200000%Z).
  { intros m [<-|[]]. vm_compute. discriminate. }
  split; [exact H|].
  exact (C7_dailyStat_no_meals 3600000%Z 1800
           [Scenario.meal_of [Scenario.item200g] 0%Z] 259200000%Z H).
Defined.

(** A week with one meal on its second day: seven entries, the cached
    total of the meal on day 1, zero elsewhere. *)
Example weeklyStat_one_meal :
  let meals := [Scenario.meal_of [Scenario.item200g] 90000000%Z] in
  map (fun s => (Stats.date s, Stats.calories s, Stats.remaining s))
      (Stats.weeklyStat 0%Z 2000 meals 0%Z 7)
  = [(0%Z, 0, 2000); (1%Z, 7, 1993); (2%Z, 0, 2000); (3%Z, 0, 2000);
     (4%Z, 0, 2000); (5%Z, 0, 2000); (6%Z, 0, 2000)].
Proof. vm_compute. reflexivity. Qed.

(** C6 at a week starting on day 0 with a single meal on day 1. *)
Lemma C6_weeklyStat_shape_witness :
  let meals := [Scenario.meal_of [Scenario.item200g] 90000000%Z] in
  let w := Stats.weeklyStat 0%Z 2000 meals 0%Z 7 in
  List.length w = 7%nat /\
  map Stats.date w
  = map (fun i => (Stats.dayOf 0%Z 0%Z + Z.of_nat i)%Z) (seq 0 7) /\
  StronglySorted Z.lt (map Stats.date w) /\
  forall i : nat, (i < 7)%nat ->
    exists s, nth_error w i = Some s /\
      Stats.date s = (Stats.dayOf 0%Z 0%Z + Z.of_nat i)%Z /\
      ((forall m, In m meals -> Stats.dayOf 0%Z (Meal.date m) <> Stats.date s) ->
       Stats.calories s = 0 /\ Stats.macros s = Macros.mk 0 0 0).
Proof.
  exact (C6_weeklyStat_shape 0%Z 2000
           [Scenario.meal_of [Scenario.item200g] 90000000%Z] 0%Z 7).
Defined.

(** * Further properties of the sources *)

(** ** The pre-save hook of meals *)

Section PreSaveMore.

Import PreSave.

Lemma fold_step_nonneg (l : list FoodItem.t) :
  Forall MealOps.nonneg_item l ->
  forall a,
    0 <= totalCals a -> 0 <= totalProtein a ->
    0 <= totalCarbs a -> 0 <= totalFat a ->
    let t := fold_left step l a in
    0 <= totalCals t /\ 0 <= totalProtein t /\
    0 <= totalCarbs t /\ 0 <= totalFat t.
Proof.
  induction 1 as [|x l (Hq & Hc & Hp & Hb & Hf) _ IH]; intros a H1 H2 H3 H4.
  - simpl. auto.
  - simpl. apply IH; unfold step; simpl.
    + pose proof (Qmult_le_0_compat _ _ Hc Hq). lra.
    + pose proof (Qmult_le_0_compat _ _ Hp Hq). lra.
    + pose proof (Qmult_le_0_compat _ _ Hb Hq). lra.
    + pose proof (Qmult_le_0_compat _ _ Hf Hq). lra.
Qed.

End PreSaveMore.

(** X3.  When every item of a meal has a non-negative quantity and a food
    with non-negative energy and macros, the stored energy and the three
    stored macros are non-negative. *)
Theorem pre_save_nonneg (m : Meal.t) :
  Forall MealOps.nonneg_item (Meal.items m) ->
  exists m', PreSave.pre_save m = Next m' /\
    0 <= Meal.totalCalories m' /\
    0 <= Macros.protein (Meal.totalMacros m') /\
    0 <= Macros.carbs (Meal.totalMacros m') /\
    0 <= Macros.fat (Meal.totalMacros m').
Proof.
  intros Hall. eexists. split; [reflexivity|]. simpl.
  apply (fold_step_nonneg _ Hall PreSave.init); simpl; lra.
Qed.

(** X3 on the meal of the "piece" scenario. *)
Lemma pre_save_nonneg_witness :
  Forall MealOps.nonneg_item (Meal.items Scenario.mealPiece) /\
  exists m', PreSave.pre_save Scenario.mealPiece = Next m' /\
    0 <= Meal.totalCalories m' /\
    0 <= Macros.protein (Meal.totalMacros m') /\
    0 <= Macros.carbs (Meal.totalMacros m') /\
    0 <= Macros.fat (Meal.totalMacros m').
Proof.
  assert (H : Forall MealOps.nonneg_item (Meal.items Scenario.mealPiece)).
  { repeat constructor; vm_compute; discriminate. }
  split; [exact H|].
  exact (pre_save_nonneg Scenario.mealPiece H).
Defined.

(** ** The goal computation, continued *)

Lemma Math_round_nonneg (x : Q) : - (1 # 2) <= x -> 0 <= JS.Math_round x.
Proof.
  intros Hx. apply Qnot_lt_le. intros Hneg.
  apply Math_round_neg_iff in Hneg. lra.
Qed.

(** X5.  The three macro targets account for the energy goal up to
    rounding: 4 kcal per gram of protein and of carbohydrate plus 9 kcal
    per gram of fat is within 2 kcal of the energy goal, for every
    baseline, weight and goal (the carbohydrate target being counted with
    its sign). *)
Theorem goals_energy_balance (tdee weight : Q) (goal : string) :
  let g := UserController.registerUser_goals tdee weight goal in
  let kcal := UserController.protein g * 4 + UserController.fat g * 9
              + UserController.carbs g * 4 in
  UserController.calorieGoal g - 2 < kcal /\
  kcal <= UserController.calorieGoal g + 2.
Proof.
  intros g kcal. subst kcal.
  pose proof (Math_round_nearest (UserController.remainingCalories g / 4))
    as (_ & Hlo & Hhi).
  change (JS.Math_round (UserController.remainingCalories g / 4))
    with (UserController.carbs g) in Hlo, Hhi.
  assert (E : UserController.remainingCalories g / 4
              == (UserController.calorieGoal g - UserController.protein g * 4
                  - UserController.fat g * 9) * (1 # 4)) by (simpl; field).
  rewrite E in Hlo, Hhi. split; lra.
Qed.

(** X6.  Only the exact strings "lose" and "gain" move the baseline: with
    any other goal value the whole computation is the one of "maintain". *)
Theorem goals_other_goal_is_maintain (tdee weight : Q) (goal : string) :
  goal <> "lose"%string -> goal <> "gain"%string ->
  UserController.registerUser_goals tdee weight goal
  = UserController.registerUser_goals tdee weight "maintain".
Proof.
  intros Hl Hg. unfold UserController.registerUser_goals.
  apply String.eqb_neq in Hl, Hg. rewrite Hl, Hg. reflexivity.
Qed.

(** X6 for a goal spelled with a capital letter. *)
Lemma goals_other_goal_is_maintain_witness :
  "Lose"%string <> "lose"%string /\ "Lose"%string <> "gain"%string /\
  UserController.registerUser_goals 2000 70 "Lose"
  = UserController.registerUser_goals 2000 70 "maintain".
Proof.
  assert (H1 : "Lose"%string <> "lose"%string) by discriminate.
  assert (H2 : "Lose"%string <> "gain"%string) by discriminate.
  split; [exact H1|]. split; [exact H2|].
  exact (goals_other_goal_is_maintain 2000 70 "Lose" H1 H2).
Defined.

(** X7.  The carbohydrate target is non-negative as soon as three
    quarters of the energy goal cover 8 kcal per kilogram of body weight
    plus 4.5 kcal. *)
Theorem goals_carbs_nonneg (tdee weight : Q) (goal : string) :
  let g := UserController.registerUser_goals tdee weight goal in
  8 * weight + 4.5 <= 0.75 * UserController.calorieGoal g ->
  0 <= UserController.carbs g.
Proof.
  intros g H.
  pose proof (Math_round_nearest (weight * UserController.proteinPerKg))
    as (_ & _ & Hp).
  pose proof (Math_round_nearest (UserController.calorieGoal g * 0.25 / 9))
    as (_ & _ & Hf).
  change (JS.Math_round (weight * UserController.proteinPerKg))
    with (UserController.protein g) in Hp.
  change (JS.Math_round (UserController.calorieGoal g * 0.25 / 9))
    with (UserController.fat g) in Hf.
  change (UserController.carbs g)
    with (JS.Math_round (UserController.remainingCalories g / 4)).
  apply Math_round_nonneg.
  assert (E : UserController.remainingCalories g / 4
              == (UserController.calorieGoal g - UserController.protein g * 4
                  - UserController.fat g * 9) * (1 # 4)) by (simpl; field).
  assert (F : UserController.calorieGoal g * 0.25 / 9
              == UserController.calorieGoal g * (1 # 36)) by field.
  rewrite E. rewrite F in Hf. unfold UserController.proteinPerKg in Hp.
  lra.
Qed.

(** X7 at 2000 kcal and 70 kg. *)
Lemma goals_carbs_nonneg_witness :
  let g := UserController.registerUser_goals 2000 70 "maintain" in
  8 * 70 + 4.5 <= 0.75 * UserController.calorieGoal g /\
  0 <= UserController.carbs g.
Proof.
  cbv zeta.
  assert (H : 8 * 70 + 4.5
              <= 0.75 * UserController.calorieGoal
                          (UserController.registerUser_goals 2000 70 "maintain"))
    by (vm_compute; discriminate).
  split; [exact H|].
  exact (goals_carbs_nonneg 2000 70 "maintain" H).
Defined.

(** X8.  A non-negative weight gives a non-negative protein target, and a
    non-negative energy goal gives a non-negative fat target. *)
Theorem goals_protein_fat_nonneg (tdee weight : Q) (goal : string) :
  let g := UserController.registerUser_goals tdee weight goal in
  0 <= weight -> 0 <= UserController.calorieGoal g ->
  0 <= UserController.protein g /\ 0 <= UserController.fat g.
Proof.
  intros g Hw Hc. split.
  - change (UserController.protein g)
      with (JS.Math_round (weight * UserController.proteinPerKg)).
    apply Math_round_nonneg. unfold UserController.proteinPerKg. lra.
  - change (UserController.fat g)
      with (JS.Math_round (UserController.calorieGoal g * 0.25 / 9)).
    apply Math_round_nonneg.
    assert (F : UserController.calorieGoal g * 0.25 / 9
                == UserController.calorieGoal g * (1 # 36)) by field.
    rewrite F. lra.
Qed.

(** X8 at a baseline of 1500 kcal, goal "lose", 150 kg. *)
Lemma goals_protein_fat_nonneg_witness :
  let g := UserController.registerUser_goals 1500 150 "lose" in
  0 <= 150 /\ 0 <= UserController.calorieGoal g /\
  0 <= UserController.protein g /\ 0 <= UserController.fat g.
Proof.
  cbv zeta.
  assert (Hw : 0 <= 150) by (vm_compute; discriminate).
  assert (Hc : 0 <= UserController.calorieGoal
                      (UserController.registerUser_goals 1500 150 "lose"))
    by (vm_compute; discriminate).
  split; [exact Hw|]. split; [exact Hc|].
  exact (goals_protein_fat_nonneg 1500 150 "lose" Hw Hc).
Defined.

(** ** Registration over the user collection *)

Section Accounts.

Variable calculateTDEE : string -> Q -> Q -> Date -> string -> Q.

Lemma email_taken_iff (users : list User.t) (e : string) :
  existsb (fun u => (User.email u =? e)%string) users = true
  <-> In e (map User.email users).
Proof.
  rewrite existsb_exists, in_map_iff. split.
  - intros (u & Hin & Heq). apply String.eqb_eq in Heq. exists u. auto.
  - intros (u & Heq & Hin). exists u. split; [exact Hin|].
    apply String.eqb_eq. exact Heq.
Qed.

Lemma email_fresh_iff (users : list User.t) (e : string) :
  existsb (fun u => (User.email u =? e)%string) users = false
  <-> ~ In e (map User.email users).
Proof.
  rewrite <- email_taken_iff. destruct (existsb _ users); split; intros H.
  - discriminate H.
  - exfalso. apply H. reflexivity.
  - intros K. discriminate K.
  - reflexivity.
Qed.

Lemma registerUser_cases (now : Date) (users : list User.t) (body : Body.t) :
  (~ In (Body.email body) (map User.email users) /\
   exists u,
     UserController.registerUser calculateTDEE now users body
     = (UserController.Status201 u, users ++ [u]) /\
     User.email u = Body.email body /\
     User.password u = Body.password body /\
     User.weightHistory u = [(Body.weight body, now)])
  \/
  (In (Body.email body) (map User.email users) /\
   exists msg,
     UserController.registerUser calculateTDEE now users body
     = (UserController.Status400 msg, users)).
Proof.
  unfold UserController.registerUser.
  destruct (existsb _ users) eqn:E.
  - right. split; [apply email_taken_iff; exact E|]. eexists. reflexivity.
  - left. split; [apply email_fresh_iff; exact E|].
    eexists. repeat split.
Qed.

End Accounts.

(** X10.  If the emails of the stored users are pairwise distinct before
    a registration, they are pairwise distinct after it. *)
Theorem registerUser_emails_unique calculateTDEE (now : Date)
    (users : list User.t) (body : Body.t) :
  NoDup (map User.email users) ->
  NoDup (map User.email
           (snd (UserController.registerUser calculateTDEE now users body))).
Proof.
  intros Hnd.
  destruct (registerUser_cases calculateTDEE now users body)
    as [(Hf & u & Hr & He & _)|(_ & msg & Hr)]; rewrite Hr; simpl.
  - rewrite map_app. simpl. rewrite He.
    apply NoDup_app; [exact Hnd | repeat constructor; simpl; tauto |].
    intros e Hin [<-|[]]. apply Hf. exact Hin.
  - exact Hnd.
Qed.

(** X10 on the collection holding one registered user. *)
Lemma registerUser_emails_unique_witness :
  NoDup (map User.email Sample.users1) /\
  NoDup (map User.email
           (snd (UserController.registerUser Sample.tdee2000 9%Z
                   Sample.users1 Sample.body2))).
Proof.
  assert (H : NoDup (map User.email Sample.users1)).
  { vm_compute. repeat constructor. simpl. tauto. }
  split; [exact H|].
  exact (registerUser_emails_unique Sample.tdee2000 9%Z Sample.users1
           Sample.body2 H).
Defined.

(** ** The dashboard screen, continued *)

Lemma or_default_nonzero (x : option Q) (d : Q) :
  ~ d == 0 -> ~ JS.or_default x d == 0.
Proof.
  intros Hd. destruct x as [q|]; simpl; [|exact Hd].
  destruct (Qeq_bool q 0) eqn:E; [exact Hd|].
  intros H. apply Qeq_bool_iff in H. congruence.
Qed.

Lemma or_default_pos (g d : Q) : 0 < g -> JS.or_default (Some g) d = g.
Proof.
  intros Hg. simpl. destruct (Qeq_bool g 0) eqn:E; [|reflexivity].
  apply Qeq_bool_iff in E. rewrite E in Hg. discriminate Hg.
Qed.

(** X14.  The three macro percentages of the screen never exceed 100,
    and the division behind a percentage never has a zero divisor: a goal
    that is absent or 0 is replaced by 1, so that the percentage is then
    100 times the consumed amount, capped at 100. *)
Theorem percentage_capped (today : Dashboard.daily_t)
    (user : option Dashboard.user_t) (consumed : Q) (goal : option Q) :
  Chart.proteinPercentage today user <= 100 /\
  Chart.carbsPercentage today user <= 100 /\
  Chart.fatPercentage today user <= 100 /\
  ~ JS.or_default goal 1 == 0 /\
  (goal = None \/ goal = Some 0 ->
   Chart.percentage consumed goal == Qmin 100 (consumed * 100)).
Proof.
  unfold Chart.proteinPercentage, Chart.carbsPercentage, Chart.fatPercentage,
    Chart.percentage.
  do 3 (split; [apply Q.le_min_l|]).
  split; [apply or_default_nonzero; discriminate|].
  intros [->| ->]; simpl; apply Q.min_compat; try reflexivity; field.
Qed.

(** X15.  With a positive goal and a non-negative consumed amount the
    percentage lies between 0 and 100; it is 100 exactly when the consumed
    amount has reached the goal, and [consumed / goal * 100] below it. *)
Theorem percentage_of_goal (consumed g : Q) :
  0 < g -> 0 <= consumed ->
  0 <= Chart.percentage consumed (Some g) /\
  (Chart.percentage consumed (Some g) == 100 <-> g <= consumed) /\
  (consumed < g ->
   Chart.percentage consumed (Some g) == consumed / g * 100).
Proof.
  intros Hg Hc. unfold Chart.percentage. rewrite (or_default_pos g 1 Hg).
  assert (Hinv : 0 < / g) by (apply Qinv_lt_0_compat; exact Hg).
  assert (Hone : g * / g == 1) by (field; lra).
  set (r := consumed / g * 100).
  assert (Hr : r == consumed * / g * 100) by reflexivity.
  assert (Hr0 : 0 <= r).
  { rewrite Hr. pose proof (Qmult_le_0_compat _ _ Hc (Qlt_le_weak _ _ Hinv)).
    lra. }
  assert (Hlt : consumed < g -> r < 100).
  { intros H. rewrite Hr.
    assert (K : consumed * / g < g * / g)
      by (apply Qmult_lt_compat_r; assumption).
    lra. }
  assert (Hge : g <= consumed -> 100 <= r).
  { intros H. rewrite Hr.
    assert (K : g * / g <= consumed * / g)
      by (apply Qmult_le_compat_r; [assumption | lra]).
    lra. }
  split; [apply Q.min_glb; lra|]. split; [split|].
  - intros Hmin. apply Qnot_lt_le. intros Hbelow.
    specialize (Hlt Hbelow).
    rewrite (Q.min_r 100 r) in Hmin by lra. lra.
  - intros H. apply Q.min_l. auto.
  - intros H. apply Q.min_r. specialize (Hlt H). lra.
Qed.

(** X15 at 45 g eaten for a goal of 120 g. *)
Lemma percentage_of_goal_witness :
  0 < 120 /\ 0 <= 45 /\
  0 <= Chart.percentage 45 (Some 120) /\
  (Chart.percentage 45 (Some 120) == 100 <-> 120 <= 45) /\
  (45 < 120 -> Chart.percentage 45 (Some 120) == 45 / 120 * 100).
Proof.
  assert (H1 : 0 < 120) by reflexivity.
  assert (H2 : 0 <= 45) by (vm_compute; discriminate).
  split; [exact H1|]. split; [exact H2|].
  exact (percentage_of_goal 45 120 H1 H2).
Defined.

(** X16.  In the chart data the labels and the consumed series always
    have the same length, and every point of the objective series is the
    user's goal.  With weekly stats the objective series has one point per
    day; without them it has a single point while the other two are
    empty.  Whenever the chart is shown, the three have the same positive
    length. *)
Theorem chart_series (weekly : option (list Chart.day_t)) (goal : option Q) :
  let c := Chart.calorieChartData weekly goal in
  List.length (Chart.labels c) = List.length (Chart.consumed c) /\
  Forall (eq goal) (Chart.objective c) /\
  match weekly with
  | Some w => List.length (Chart.objective c) = List.length w /\
              List.length (Chart.consumed c) = List.length w
  | None => Chart.consumed c = [] /\ Chart.objective c = [goal]
  end /\
  (Chart.showsChart weekly = true ->
   List.length (Chart.objective c) = List.length (Chart.consumed c) /\
   List.length (Chart.labels c) = List.length (Chart.consumed c) /\
   (0 < List.length (Chart.consumed c))%nat).
Proof.
  destruct weekly as [w|]; simpl.
  - rewrite !length_map, repeat_length.
    split; [reflexivity|]. split.
    + apply Forall_forall. intros x Hx. symmetry.
      apply (repeat_spec _ _ _ Hx).
    + split; [split; reflexivity|].
      intros H. apply Nat.ltb_lt in H. auto.
  - split; [reflexivity|]. split; [repeat constructor|].
    split; [split; reflexivity|]. intros H. discriminate H.
Qed.

(** X17.  When no daily stat is loaded, the remaining energy shown is
    never 0: it is the user's goal if there is one and it is not 0, and
    2000 otherwise; a loaded daily stat is shown as it is. *)
Theorem today_remaining (daily : option Dashboard.daily_t)
    (user : option Dashboard.user_t) :
  match daily with
  | Some d => Dashboard.today daily user = d
  | None =>
      ~ Dashboard.remaining (Dashboard.today daily user) == 0 /\
      (forall g, Dashboard.user_goal user = Some g -> ~ g == 0 ->
                 Dashboard.remaining (Dashboard.today daily user) = g) /\
      (Dashboard.user_goal user = None \/ Dashboard.user_goal user = Some 0 ->
       Dashboard.remaining (Dashboard.today daily user) = 2000)
  end.
Proof.
  destruct daily as [d|]; [reflexivity|]. simpl.
  split; [apply or_default_nonzero; discriminate|]. split.
  - intros g -> Hg. simpl. destruct (Qeq_bool g 0) eqn:E; [|reflexivity].
    apply Qeq_bool_iff in E. contradiction.
  - intros [-> | ->]; reflexivity.
Qed.

(** One branch of the icon table: the route is a tab, with both icons. *)
Ltac tab_case :=
  split;
  [ split;
    [ intros _; eexists; reflexivity
    | intros _; unfold Navigator.tabs; simpl; tauto ]
  | split;
    [ intros focused; split;
      [ destruct focused; discriminate
      | intros H; exfalso; apply H; unfold Navigator.tabs; simpl; tauto ]
    | intros n [= <-]; reflexivity ] ].

(** X18.  Every tab of the main navigator has an icon in both states, and
    a route has no icon exactly when it is not one of the tabs; whenever a
    route has a focused icon, its unfocused icon is that name followed by
    "-outline". *)
Theorem iconName_tabs (routeName : string) :
  (In routeName Navigator.tabs <->
   exists n, Navigator.iconName routeName true = Some n) /\
  (forall focused,
     Navigator.iconName routeName focused = None
     <-> ~ In routeName Navigator.tabs) /\
  (forall n, Navigator.iconName routeName true = Some n ->
             Navigator.iconName routeName false
             = Some (n ++ "-outline")%string).
Proof.
  unfold Navigator.iconName.
  destruct (String.eqb_spec routeName "Dashboard") as [->|N1]; [tab_case|].
  destruct (String.eqb_spec routeName "Journal") as [->|N2]; [tab_case|].
  destruct (String.eqb_spec routeName "Food") as [->|N3]; [tab_case|].
  destruct (String.eqb_spec routeName "Plans") as [->|N4]; [tab_case|].
  destruct (String.eqb_spec routeName "Profile") as [->|N5]; [tab_case|].
  assert (Hnot : ~ In routeName Navigator.tabs).
  { unfold Navigator.tabs. simpl.
    intros [H|[H|[H|[H|[H|[]]]]]]; congruence. }
  split; [split; [intros H; contradiction | intros [n H]; discriminate H]|].
  split; [intros focused; split; [intros _; exact Hnot | reflexivity]|].
  intros n H. discriminate H.
Qed.
